(** * eye-break: settings store, alarm reconciliation and notification

    A shallow embedding of [public/background.js] (the background
    process) and of the storage and alarm logic of [src/App.tsx] (the
    settings view), with the properties of the reconciliation logic.

    The host facilities (persistent storage, alarms, notifications, the
    console, the clock) are not part of the repository.  They are
    modelled by a state record [host] and a few primitive operations
    that follow the WebExtension contract: [storage.local.get(k)]
    answers with an object holding [k] only when it is stored,
    [storage.local.set] overwrites and keeps the value as given,
    [alarms.clear] removes the named alarm, [alarms.create] installs the
    named alarm with the period it is given (replacing one of the same
    name), [alarms.get] answers with the alarm or [undefined].  Every
    call is also appended to a trace, so that statements about which
    calls are issued do not depend on what the host does with them.

    Execution is single-threaded: an awaited call completes before the
    next statement runs, and the host serves calls in the order they are
    issued, so a call that is not awaited still takes effect in program
    order.  What a missing [await] changes is the value the caller holds:
    a promise instead of the result.  The clock does not advance while a
    handler runs. *)

From Stdlib Require Import ZArith String List Bool Lia.
From stdpp Require Import base option gmap strings list fin_maps pretty.

Open Scope string_scope.
Open Scope Z_scope.
Open Scope list_scope.

(** ** JavaScript values *)

Module JS.

(** The numbers the program handles are the results of [parseInt] on the
    interval field (an integer, or NaN on an empty or malformed field)
    and timestamps in milliseconds. *)
Inductive number : Type :=
| Finite (z : Z)
| NaN.

(** Primitive values: what property access on a storage answer yields. *)
Inductive prim : Type :=
| PUndefined
| PBool (b : bool)
| PNum (n : number)
| PStr (s : string).

(** A value a variable of the background script holds: a primitive, or
    the promise an [async] function returns when it is called without
    [await]; the promise carries the primitive it settles to. *)
Inductive value : Type :=
| Prim (p : prim)
| Promise (p : prim).

#[global] Instance number_eq_dec : EqDecision number.
Proof. solve_decision. Defined.
#[global] Instance prim_eq_dec : EqDecision prim.
Proof. solve_decision. Defined.
#[global] Instance value_eq_dec : EqDecision value.
Proof. solve_decision. Defined.

(** [===] on numbers: NaN is not equal to anything, itself included. *)
Definition number_strict_eq (a b : number) : bool :=
  match a, b with
  | Finite x, Finite y => x =? y
  | _, _ => false
  end.

(** [===] on primitives: same type and same value. *)
Definition strict_eq (a b : prim) : bool :=
  match a, b with
  | PUndefined, PUndefined => true
  | PBool x, PBool y => eqb x y
  | PNum x, PNum y => number_strict_eq x y
  | PStr x, PStr y => String.eqb x y
  | _, _ => false
  end.

(** [!==] *)
Definition strict_neq (a b : prim) : bool := negb (strict_eq a b).

(** ToBoolean, as applied by [if (...)]: every object, hence every
    promise, is truthy. *)
Definition truthy (v : value) : bool :=
  match v with
  | Promise _ => true
  | Prim PUndefined => false
  | Prim (PBool b) => b
  | Prim (PNum (Finite z)) => negb (z =? 0)
  | Prim (PNum NaN) => false
  | Prim (PStr s) => negb (String.eqb s "")
  end.

(** [Object.keys(o)] and [Array.prototype.includes] on string arrays. *)
Definition Object_keys (o : gmap string prim) : list string :=
  (map_to_list o).*1.

Definition includes (l : list string) (k : string) : bool :=
  bool_decide (k ∈ l).

(** [o[k]]: the property, or [undefined]. *)
Definition prop (o : gmap string prim) (k : string) : prim :=
  default PUndefined (o !! k).

End JS.
Export JS.

(** ** The host *)

Module Host.

(** An alarm as [alarms.get] reports it. *)
Record alarm : Type := Alarm {
  name : string;
  scheduledTime : Z;
  periodInMinutes : value
}.

(** The argument of [notifications.create]. *)
Record notification : Type := Notification {
  type : string;
  iconUrl : string;
  title : prim;
  message : prim
}.

(** Calls into the host, in the order they are issued. *)
Inductive call : Type :=
| StorageGet (key : string)
| StorageSet (key : string) (v : prim)
| AlarmsClear (nm : string)
| AlarmsCreate (nm : string) (period : value)
| AlarmsGet (nm : string)
| RuntimeGetURL (path : string)
| NotificationsCreate (n : notification)
| ConsoleError (msg : string).

#[global] Instance alarm_eq_dec : EqDecision alarm.
Proof. solve_decision. Defined.
#[global] Instance notification_eq_dec : EqDecision notification.
Proof. solve_decision. Defined.
#[global] Instance call_eq_dec : EqDecision call.
Proof. solve_decision. Defined.

Record host : Type := MkHost {
  storage : gmap string prim;      (* browser.storage.local *)
  alarms : gmap string alarm;      (* browser.alarms, by name *)
  clock : Z;                       (* new Date().getTime() *)
  base_url : string;               (* prefix of runtime.getURL *)
  trace : list call                (* calls issued so far, oldest first *)
}.

(** Code that talks to the host: a state monad over [host]. *)
Definition M (A : Type) : Type := host → A * host.

Definition ret {A} (a : A) : M A := λ h, (a, h).

Definition bind {A B} (m : M A) (k : A → M B) : M B :=
  λ h, let '(a, h') := m h in k a h'.

#[global] Instance host_ret : MRet M := @ret.
#[global] Instance host_bind : MBind M := λ A B k m, bind m k.

Definition record (c : call) (h : host) : host :=
  MkHost (storage h) (alarms h) (clock h) (base_url h) (trace h ++ [c]).

Definition storage_local_get (key : string) : M (gmap string prim) :=
  λ h, (match storage h !! key with
        | Some v => {[ key := v ]}
        | None => ∅
        end,
        record (StorageGet key) h).

Definition storage_local_set (key : string) (v : prim) : M unit :=
  λ h, (tt,
        record (StorageSet key v)
          (MkHost (<[ key := v ]> (storage h)) (alarms h) (clock h)
                  (base_url h) (trace h))).

Definition alarms_clear (nm : string) : M bool :=
  λ h, (bool_decide (is_Some (alarms h !! nm)),
        record (AlarmsClear nm)
          (MkHost (storage h) (delete nm (alarms h)) (clock h)
                  (base_url h) (trace h))).

Definition alarms_get (nm : string) : M (option alarm) :=
  λ h, (alarms h !! nm, record (AlarmsGet nm) h).

Definition runtime_getURL (path : string) : M string :=
  λ h, (base_url h +:+ path, record (RuntimeGetURL path) h).

Definition notifications_create (n : notification) : M unit :=
  λ h, (tt, record (NotificationsCreate n) h).

Definition console_error (msg : string) : M unit :=
  λ h, (tt, record (ConsoleError msg) h).

Definition Date_getTime : M Z := λ h, (clock h, h).

(** Calling an [async] function without [await]: its host calls are
    issued, the caller receives the promise. *)
Definition unawaited (m : M prim) : M value :=
  λ h, let '(p, h') := m h in (Promise p, h').

(** The same when the promise is dropped on the spot. *)
Definition detached {A} (m : M A) : M unit :=
  λ h, let '(_, h') := m h in (tt, h').

Section Create.
(** When a new alarm first fires is the host's choice: a function of the
    current time and of the requested period. *)
Variable first_fire : Z → value → Z.

Definition alarms_create (nm : string) (period : value) : M unit :=
  λ h, (tt,
        record (AlarmsCreate nm period)
          (MkHost (storage h)
                  (<[ nm := Alarm nm (first_fire (clock h) period) period ]>
                     (alarms h))
                  (clock h) (base_url h) (trace h))).
End Create.

End Host.
Export Host.

(** The one alarm name both scripts use. *)
Definition ALARM : string := "eye-break-notification".

(** ** public/background.js *)

Module Background.

Definition createNotification (title message : prim) : M unit :=
  url ← runtime_getURL "logo48.png";
  notifications_create (Notification "basic" url title message).

Definition getEnabled : M prim :=
  storageResp ← storage_local_get "enabled";
  if negb (includes (Object_keys storageResp) "enabled")
  then mret (PBool false)
  else mret (prop storageResp "enabled").

Definition getInterval : M prim :=
  storageResp ← storage_local_get "interval";
  if negb (includes (Object_keys storageResp) "interval")
  then mret (PNum (Finite 20))
  else mret (prop storageResp "interval").

Definition getMessage : M prim :=
  storageResp ← storage_local_get "message";
  if negb (includes (Object_keys storageResp) "message")
  then mret (PStr "Time to give your eyes a break!")
  else mret (prop storageResp "message").

Section Startup.
Variable first_fire : Z → value → Z.

(** [getEnabled()] and [getInterval()] are called without [await]:
    [enabled] and [interval] are promises. *)
Definition startupHandler : M unit :=
  enabled ← unawaited getEnabled;
  if truthy enabled then
    interval ← unawaited getInterval;
    _ ← alarms_clear ALARM;
    alarms_create first_fire ALARM interval
  else mret tt.
End Startup.

(** The event the host delivers when an alarm fires. *)
Definition alarmHandler (alarmInfo : alarm) : M unit :=
  let alarmName := name alarmInfo in
  _ ← (if negb (String.eqb alarmName ALARM)
       then console_error ("Unexpected alarm name: " +:+ alarmName)
       else mret tt);
  message ← getMessage;
  createNotification (PStr "Eye Break!") message.

End Background.

(** ** src/App.tsx *)

Module App.

Definition getEnabled : M prim :=
  storageResp ← storage_local_get "enabled";
  if negb (includes (Object_keys storageResp) "enabled")
  then mret (PBool false)
  else mret (prop storageResp "enabled").

Definition setEnabled (value : bool) : M unit :=
  storage_local_set "enabled" (PBool value).

Definition getInterval : M prim :=
  storageResp ← storage_local_get "interval";
  if negb (includes (Object_keys storageResp) "interval")
  then mret (PNum (Finite 20))
  else mret (prop storageResp "interval").

Definition setIntervalStorage (value : number) : M unit :=
  storage_local_set "interval" (PNum value).

Definition getMessage : M prim :=
  storageResp ← storage_local_get "message";
  if negb (includes (Object_keys storageResp) "message")
  then mret (PStr "Time to give your eyes a break!")
  else mret (prop storageResp "message").

Definition setMessage (value : string) : M unit :=
  storage_local_set "message" (PStr value).

Definition getNextAlarmTime : M Z :=
  alarmInfo ← alarms_get ALARM;
  match alarmInfo with
  | None => mret 0
  | Some a => mret (scheduledTime a)
  end.

(** The component's state, with the types of its [useState] hooks. *)
Record state : Type := State {
  enabled : bool;
  interval : number;
  message : string;
  nextTime : Z
}.

#[global] Instance state_eq_dec : EqDecision state.
Proof. solve_decision. Defined.

Definition setNextTime (v : Z) (s : state) : state :=
  State (enabled s) (interval s) (message s) v.

(** [getNextAlarmTime().then(nextAlarm => setNextTime(nextAlarm - new
    Date().getTime()))], also the body of the 500 ms poll. *)
Definition refreshNextTime (s : state) : M state :=
  nextAlarm ← getNextAlarmTime;
  now ← Date_getTime;
  mret (setNextTime (nextAlarm - now) s).

Section Save.
Variable first_fire : Z → value → Z.

Definition handleSave (s : state) : M state :=
  prevEnabled ← getEnabled;
  prevInterval ← getInterval;
  prevMessage ← getMessage;
  _ ← detached (setEnabled (enabled s));
  _ ← detached (setIntervalStorage (interval s));
  _ ← detached (setMessage (message s));
  if strict_neq prevEnabled (PBool (enabled s))
     || strict_neq prevInterval (PNum (interval s))
     || strict_neq prevMessage (PStr (message s))
  then
    _ ← alarms_clear ALARM;
    _ ← (if enabled s
         then alarms_create first_fire ALARM (Prim (PNum (interval s)))
         else mret tt);
    refreshNextTime s
  else mret s.
End Save.

(** [String(n).padStart(2, "0")] *)
Definition padStart2 (n : Z) : string :=
  let d := pretty n in
  match String.length d with
  | O => "00"
  | S O => "0" +:+ d
  | _ => d
  end.

(** The countdown of the view: rendered only when [nextTime > 0]. *)
Definition countdown (s : state) : option string :=
  if 0 <? nextTime s
  then Some (padStart2 (nextTime s / 1000 / 60) +:+ ":"
             +:+ padStart2 (Z.rem (nextTime s / 1000) 60))
  else None.

End App.

(** ** Reading the model *)

(** The settings as the getters report them. *)
Definition persisted_enabled (h : host) : prim := (App.getEnabled h).1.
Definition persisted_interval (h : host) : prim := (App.getInterval h).1.
Definition persisted_message (h : host) : prim := (App.getMessage h).1.

(** The change detection of the save path, on the persisted settings
    and the values of the form. *)
Definition changed (h : host) (s : App.state) : bool :=
  strict_neq (persisted_enabled h) (PBool (App.enabled s))
  || strict_neq (persisted_interval h) (PNum (App.interval s))
  || strict_neq (persisted_message h) (PStr (App.message s)).

(** The store after the three setters of the save path. *)
Definition saved (s : App.state) (st : gmap string prim) : gmap string prim :=
  <[ "message" := PStr (App.message s) ]>
    (<[ "interval" := PNum (App.interval s) ]>
       (<[ "enabled" := PBool (App.enabled s) ]> st)).

(** The storage calls every save issues. *)
Definition save_storage_calls (s : App.state) : list call :=
  [StorageGet "enabled"; StorageGet "interval"; StorageGet "message";
   StorageSet "enabled" (PBool (App.enabled s));
   StorageSet "interval" (PNum (App.interval s));
   StorageSet "message" (PStr (App.message s))].

(** The calls a computation adds to the trace. *)
Definition issued {A} (m : M A) (h : host) : list call :=
  drop (length (trace h)) (trace (m h).2).

Definition is_alarm_write (c : call) : bool :=
  match c with
  | AlarmsClear _ | AlarmsCreate _ _ => true
  | _ => false
  end.

Definition is_storage_call (c : call) : bool :=
  match c with
  | StorageGet _ | StorageSet _ _ => true
  | _ => false
  end.

Definition notifications_of (l : list call) : list notification :=
  omap (λ c, match c with NotificationsCreate n => Some n | _ => None end) l.

Definition diagnostics_of (l : list call) : list string :=
  omap (λ c, match c with ConsoleError m => Some m | _ => None end) l.

(** ** The invariant of the data model and the reachable states *)

(** Zero or one alarm; when [enabled] is persisted as true the alarm is
    there and its period is the persisted interval; when it is persisted
    as false there is no alarm. *)
Record invariant (h : host) : Prop := Invariant {
  inv_at_most_one : (size (alarms h) ≤ 1)%nat;
  inv_enabled :
    persisted_enabled h = PBool true →
    ∃ a, alarms h !! ALARM = Some a
         ∧ periodInMinutes a = Prim (persisted_interval h);
  inv_disabled :
    persisted_enabled h = PBool false → alarms h = ∅
}.

(** A fresh installation: nothing stored, nothing scheduled. *)
Definition installed (h : host) : Prop :=
  storage h = ∅ ∧ alarms h = ∅.

Section System.
Variable first_fire : Z → value → Z.

(** The two reconciliation triggers. *)
Inductive step : host → host → Prop :=
| step_startup (h : host) :
    step h (Background.startupHandler first_fire h).2
| step_save (s : App.state) (h : host) :
    step h (App.handleSave first_fire s h).2.

(** The save path alone. *)
Inductive save_step : host → host → Prop :=
| save_step_intro (s : App.state) (h : host) :
    save_step h (App.handleSave first_fire s h).2.

Definition reachable (h : host) : Prop :=
  ∃ h0, installed h0 ∧ rtc step h0 h.

End System.

(** ** Concrete states, for evaluation *)

Module Sample.

(** A host that first fires an alarm one period after its creation. *)
Definition delay (now : Z) (period : value) : Z :=
  match period with
  | Prim (PNum (Finite m)) => now + m * 60000
  | _ => now
  end.

Definition fresh : host :=
  MkHost ∅ ∅ 1700000000000 "moz-extension://eye-break/" [].

(** Reminders switched off by the user while an alarm is still scheduled. *)
Definition disabled_with_alarm : host :=
  MkHost {[ "enabled" := PBool false ]}
         {[ ALARM := Alarm ALARM 1700000600000 (Prim (PNum (Finite 20))) ]}
         1700000000000 "moz-extension://eye-break/" [].

(** Reminders on, every five minutes. *)
Definition every_five : host :=
  MkHost (<[ "enabled" := PBool true ]>
            (<[ "interval" := PNum (Finite 5) ]>
               {[ "message" := PStr "Look away" ]}))
         {[ ALARM := Alarm ALARM 1700000300000 (Prim (PNum (Finite 5))) ]}
         1700000000000 "moz-extension://eye-break/" [].

(** Reminders off, with an interval and a message stored. *)
Definition switched_off : host :=
  MkHost (<[ "enabled" := PBool false ]>
            (<[ "interval" := PNum (Finite 5) ]>
               {[ "message" := PStr "Look away" ]}))
         ∅ 1700000000000 "moz-extension://eye-break/" [].

(** The form with the interval field left empty: [parseInt("")] is NaN. *)
Definition empty_interval : App.state := App.State true NaN "Look away" 0.

(** The store and the alarms after a first save of that form on a fresh
    installation. *)
Definition saved_empty_interval : host :=
  (App.handleSave delay empty_interval fresh).2.

(** A fresh installation after the browser has started once. *)
Definition started : host := (Background.startupHandler delay fresh).2.

Definition five_on : App.state := App.State true (Finite 5) "Look away" 0.
Definition five_off : App.state := App.State false (Finite 5) "Look away" 0.
Definition five_on_reworded : App.state :=
  App.State true (Finite 5) "Blink" 0.

(** Reminders switched on every five minutes on a fresh installation,
    and the same after the browser has been restarted. *)
Definition saved_five : host := (App.handleSave delay five_on fresh).2.
Definition restarted : host := (Background.startupHandler delay saved_five).2.

(** The interval raised to ten minutes, everything else as stored in
    [every_five]. *)
Definition ten_on : App.state := App.State true (Finite 10) "Look away" 0.

(** A host that also holds a key and an alarm the extension does not
    know about. *)
Definition shared : host :=
  MkHost (<[ "theme" := PStr "dark" ]>
            (<[ "enabled" := PBool true ]>
               (<[ "interval" := PNum (Finite 5) ]>
                  {[ "message" := PStr "Look away" ]})))
         (<[ "backup" := Alarm "backup" 1700003600000 (Prim (PNum (Finite 60))) ]>
            {[ ALARM := Alarm ALARM 1700000300000 (Prim (PNum (Finite 5))) ]})
         1700000000000 "moz-extension://eye-break/" [].


End Sample.

(** ** General facts *)

(** Run the host primitives on an explicit host state, call by value,
    leaving the finite maps and the getters folded. *)
Ltac host_run :=
  cbv beta iota zeta delta
    [mbind host_bind bind mret host_ret ret record
     storage_local_set alarms_clear alarms_get alarms_create
     runtime_getURL notifications_create console_error Date_getTime
     unawaited detached
     fst snd storage alarms clock base_url trace].

(** Flatten the appends of a trace. *)
Ltac trace_simpl := rewrite <- ?app_assoc; cbn [app].

Lemma read_key (key : string) (dflt : prim) (h : host) :
  (storageResp ← storage_local_get key;
   if negb (includes (Object_keys storageResp) key)
   then mret dflt
   else mret (prop storageResp key)) h
  = (default dflt (storage h !! key), record (StorageGet key) h).
Proof.
  unfold mbind, host_bind, bind, storage_local_get, mret, host_ret, ret.
  unfold includes, Object_keys, prop.
  destruct (storage h !! key) as [v|] eqn:E.
  - rewrite map_to_list_singleton. cbn [fmap list_fmap fst].
    rewrite bool_decide_eq_true_2 by set_solver.
    cbn. by rewrite lookup_singleton_eq.
  - rewrite map_to_list_empty. cbn [fmap list_fmap].
    rewrite bool_decide_eq_false_2 by set_solver. done.
Qed.

Section HandlerEquations.
Variable first_fire : Z → value → Z.

Lemma Background_getEnabled_run (h : host) :
  Background.getEnabled h
  = (default (PBool false) (storage h !! "enabled"),
     record (StorageGet "enabled") h).
Proof. apply read_key. Qed.

Lemma Background_getInterval_run (h : host) :
  Background.getInterval h
  = (default (PNum (Finite 20)) (storage h !! "interval"),
     record (StorageGet "interval") h).
Proof. apply read_key. Qed.

Lemma Background_getMessage_run (h : host) :
  Background.getMessage h
  = (default (PStr "Time to give your eyes a break!") (storage h !! "message"),
     record (StorageGet "message") h).
Proof. apply read_key. Qed.

Lemma App_getEnabled_run (h : host) :
  App.getEnabled h
  = (default (PBool false) (storage h !! "enabled"),
     record (StorageGet "enabled") h).
Proof. apply read_key. Qed.

Lemma App_getInterval_run (h : host) :
  App.getInterval h
  = (default (PNum (Finite 20)) (storage h !! "interval"),
     record (StorageGet "interval") h).
Proof. apply read_key. Qed.

Lemma App_getMessage_run (h : host) :
  App.getMessage h
  = (default (PStr "Time to give your eyes a break!") (storage h !! "message"),
     record (StorageGet "message") h).
Proof. apply read_key. Qed.

Lemma issued_app {A} (m : M A) (h : host) (l : list call) :
  trace (m h).2 = trace h ++ l → issued m h = l.
Proof. intros E. unfold issued. rewrite E. apply drop_app_length. Qed.

Lemma startupHandler_run (h : host) :
  let interval := Promise (default (PNum (Finite 20)) (storage h !! "interval")) in
  Background.startupHandler first_fire h
  = (tt,
     MkHost (storage h)
       (<[ ALARM := Alarm ALARM (first_fire (clock h) interval) interval ]>
          (delete ALARM (alarms h)))
       (clock h) (base_url h)
       (trace h ++ [StorageGet "enabled"; StorageGet "interval";
                    AlarmsClear ALARM; AlarmsCreate ALARM interval])).
Proof.
  destruct h as [st al ck bu tr].
  unfold Background.startupHandler. host_run.
  rewrite Background_getEnabled_run. host_run. cbv [truthy].
  rewrite Background_getInterval_run. host_run.
  trace_simpl. reflexivity.
Qed.

Lemma handleSave_unchanged (s : App.state) (h : host) :
  changed h s = false →
  App.handleSave first_fire s h
  = (s, MkHost (saved s (storage h)) (alarms h) (clock h) (base_url h)
          (trace h ++ save_storage_calls s)).
Proof.
  destruct h as [st al ck bu tr].
  unfold changed, persisted_enabled, persisted_interval, persisted_message.
  rewrite App_getEnabled_run, App_getInterval_run, App_getMessage_run.
  host_run. intros Hc.
  unfold App.handleSave, App.setEnabled, App.setIntervalStorage,
    App.setMessage.
  host_run. rewrite App_getEnabled_run. host_run.
  rewrite App_getInterval_run. host_run.
  rewrite App_getMessage_run. host_run.
  rewrite Hc. host_run.
  unfold saved, save_storage_calls. trace_simpl. reflexivity.
Qed.

Lemma handleSave_changed (s : App.state) (h : host) :
  changed h s = true →
  let period := Prim (PNum (App.interval s)) in
  let alarms' :=
    if App.enabled s
    then <[ ALARM := Alarm ALARM (first_fire (clock h) period) period ]>
           (delete ALARM (alarms h))
    else delete ALARM (alarms h) in
  App.handleSave first_fire s h
  = (App.setNextTime
       (from_option scheduledTime 0 (alarms' !! ALARM) - clock h) s,
     MkHost (saved s (storage h)) alarms' (clock h) (base_url h)
       (trace h ++ save_storage_calls s ++ [AlarmsClear ALARM]
          ++ (if App.enabled s then [AlarmsCreate ALARM period] else [])
          ++ [AlarmsGet ALARM])).
Proof.
  destruct h as [st al ck bu tr].
  unfold changed, persisted_enabled, persisted_interval, persisted_message.
  rewrite App_getEnabled_run, App_getInterval_run, App_getMessage_run.
  host_run. intros Hc.
  unfold App.handleSave, App.setEnabled, App.setIntervalStorage,
    App.setMessage, App.refreshNextTime, App.getNextAlarmTime.
  host_run. rewrite App_getEnabled_run. host_run.
  rewrite App_getInterval_run. host_run.
  rewrite App_getMessage_run. host_run.
  rewrite Hc. unfold saved, save_storage_calls.
  destruct (App.enabled s); host_run.
  - rewrite lookup_insert_eq. cbv [from_option scheduledTime].
    trace_simpl. reflexivity.
  - rewrite lookup_delete_eq. cbv [from_option].
    trace_simpl. reflexivity.
Qed.

End HandlerEquations.

(** ** Strict equality against a literal of known type *)

Lemma strict_neq_bool (p : prim) (b : bool) :
  strict_neq p (PBool b) = false ↔ p = PBool b.
Proof.
  unfold strict_neq. rewrite negb_false_iff.
  destruct p as [|b'| |]; cbn; try (split; [discriminate|discriminate]).
  rewrite eqb_true_iff. split; congruence.
Qed.

Lemma strict_neq_str (p : prim) (m : string) :
  strict_neq p (PStr m) = false ↔ p = PStr m.
Proof.
  unfold strict_neq. rewrite negb_false_iff.
  destruct p as [| | |m']; cbn; try (split; [discriminate|discriminate]).
  rewrite String.eqb_eq. split; congruence.
Qed.

Lemma strict_neq_num (p : prim) (n : number) :
  strict_neq p (PNum n) = false ↔ p = PNum n ∧ n ≠ NaN.
Proof.
  unfold strict_neq. rewrite negb_false_iff.
  destruct p as [| |n'|]; cbn;
    try (split; [discriminate|intros [? _]; discriminate]).
  destruct n' as [x|], n as [y|]; cbn.
  - rewrite Z.eqb_eq. split; [intros ->; done|intros [[=] _]; done].
  - split; [discriminate|intros [_ ?]; done].
  - split; [discriminate|intros [[=] _]].
  - split; [discriminate|intros [_ ?]; done].
Qed.

Lemma changed_false (h : host) (s : App.state) :
  changed h s = false ↔
  persisted_enabled h = PBool (App.enabled s)
  ∧ persisted_interval h = PNum (App.interval s)
  ∧ persisted_message h = PStr (App.message s)
  ∧ App.interval s ≠ NaN.
Proof.
  unfold changed. rewrite !orb_false_iff.
  rewrite strict_neq_bool, strict_neq_num, strict_neq_str. tauto.
Qed.

Lemma persisted_enabled_eq (h : host) :
  persisted_enabled h = default (PBool false) (storage h !! "enabled").
Proof. unfold persisted_enabled. by rewrite App_getEnabled_run. Qed.

Lemma persisted_interval_eq (h : host) :
  persisted_interval h = default (PNum (Finite 20)) (storage h !! "interval").
Proof. unfold persisted_interval. by rewrite App_getInterval_run. Qed.

Lemma persisted_message_eq (h : host) :
  persisted_message h
  = default (PStr "Time to give your eyes a break!") (storage h !! "message").
Proof. unfold persisted_message. by rewrite App_getMessage_run. Qed.

(** What the getters report after a save is what was saved. *)
Lemma persisted_after_save (s : App.state) (h h' : host) :
  storage h' = saved s (storage h) →
  persisted_enabled h' = PBool (App.enabled s)
  ∧ persisted_interval h' = PNum (App.interval s)
  ∧ persisted_message h' = PStr (App.message s).
Proof.
  intros E.
  rewrite persisted_enabled_eq, persisted_interval_eq, persisted_message_eq, E.
  unfold saved. by simplify_map_eq.
Qed.

(** ** The settings store *)

(** C9. When a key is absent from the store its getter returns the
    documented default ([false], [20], the default reminder text); when
    the key is present the getter returns the stored value. *)
Theorem getters_default_or_stored (h : host) :
  (storage h !! "enabled" = None →
     (Background.getEnabled h).1 = PBool false)
  ∧ (storage h !! "interval" = None →
     (Background.getInterval h).1 = PNum (Finite 20))
  ∧ (storage h !! "message" = None →
     (Background.getMessage h).1 = PStr "Time to give your eyes a break!")
  ∧ (∀ v, storage h !! "enabled" = Some v →
     (Background.getEnabled h).1 = v)
  ∧ (∀ v, storage h !! "interval" = Some v →
     (Background.getInterval h).1 = v)
  ∧ (∀ v, storage h !! "message" = Some v →
     (Background.getMessage h).1 = v).
Proof.
  rewrite Background_getEnabled_run, Background_getInterval_run,
    Background_getMessage_run. cbn [fst].
  repeat split; intros; by simplify_option_eq.
Qed.

Lemma getters_default_or_stored_witness :
  ((Background.getEnabled Sample.fresh).1 = PBool false
   ∧ (Background.getInterval Sample.fresh).1 = PNum (Finite 20)
   ∧ (Background.getMessage Sample.fresh).1
     = PStr "Time to give your eyes a break!")
  ∧ ((Background.getEnabled Sample.every_five).1 = PBool true
     ∧ (Background.getInterval Sample.every_five).1 = PNum (Finite 5)
     ∧ (Background.getMessage Sample.every_five).1 = PStr "Look away").
Proof.
  destruct (getters_default_or_stored Sample.fresh) as (A1 & A2 & A3 & _).
  destruct (getters_default_or_stored Sample.every_five)
    as (_ & _ & _ & B1 & B2 & B3).
  split; split_and!.
  - apply A1. vm_compute; reflexivity.
  - apply A2. vm_compute; reflexivity.
  - apply A3. vm_compute; reflexivity.
  - apply B1. vm_compute; reflexivity.
  - apply B2. vm_compute; reflexivity.
  - apply B3. vm_compute; reflexivity.
Defined.

(** The getters of the settings view are the same functions. *)
Lemma App_getters_agree (h : host) :
  App.getEnabled h = Background.getEnabled h
  ∧ App.getInterval h = Background.getInterval h
  ∧ App.getMessage h = Background.getMessage h.
Proof. done. Qed.

(** ** The alarm handler *)

Lemma alarmHandler_run (a : alarm) (h : host) :
  let n := Notification "basic" (base_url h +:+ "logo48.png")
             (PStr "Eye Break!")
             (default (PStr "Time to give your eyes a break!")
                (storage h !! "message")) in
  Background.alarmHandler a h
  = (tt,
     MkHost (storage h) (alarms h) (clock h) (base_url h)
       (trace h
          ++ (if String.eqb (name a) ALARM then []
              else [ConsoleError ("Unexpected alarm name: " +:+ name a)])
          ++ [StorageGet "message"; RuntimeGetURL "logo48.png";
              NotificationsCreate n])).
Proof.
  destruct h as [st al ck bu tr].
  unfold Background.alarmHandler, Background.createNotification.
  destruct (String.eqb (name a) ALARM); cbv [negb]; host_run;
    rewrite Background_getMessage_run; host_run;
    trace_simpl; reflexivity.
Qed.

(** C8. Whatever alarm fires, the handler displays exactly one
    notification, titled "Eye Break!" and carrying the message read from
    the store at that moment (the default text when none is stored).  A
    name other than "eye-break-notification" adds one diagnostic and
    nothing else: the notification is the same for every name. *)
Theorem alarmHandler_notifies_once (a : alarm) (h : host) :
  let calls := issued (Background.alarmHandler a) h in
  notifications_of calls
  = [Notification "basic" (base_url h +:+ "logo48.png")
       (PStr "Eye Break!") (Background.getMessage h).1]
  ∧ diagnostics_of calls
    = (if decide (name a = ALARM) then []
       else ["Unexpected alarm name: " +:+ name a])
  ∧ (∀ b : alarm,
       notifications_of (issued (Background.alarmHandler b) h)
       = notifications_of calls)
  ∧ storage (Background.alarmHandler a h).2 = storage h
  ∧ alarms (Background.alarmHandler a h).2 = alarms h.
Proof.
  assert (N : ∀ b : alarm,
    notifications_of (issued (Background.alarmHandler b) h)
    = [Notification "basic" (base_url h +:+ "logo48.png")
         (PStr "Eye Break!") (Background.getMessage h).1]).
  { intros b. rewrite (issued_app _ _ _ (f_equal trace
      (f_equal snd (alarmHandler_run b h)))).
    rewrite Background_getMessage_run.
    by destruct (String.eqb (name b) ALARM). }
  cbn zeta. split_and!.
  - apply N.
  - rewrite (issued_app _ _ _ (f_equal trace
      (f_equal snd (alarmHandler_run a h)))).
    destruct (String.eqb_spec (name a) ALARM); by case_decide.
  - intros b. by rewrite !N.
  - by rewrite alarmHandler_run.
  - by rewrite alarmHandler_run.
Qed.

(** ** The countdown of the settings view *)

(** C10. When no alarm named "eye-break-notification" exists,
    [getNextAlarmTime] returns 0; the countdown the view then computes is
    0 minus the current time, which is not positive for a clock at or
    after the epoch, and no countdown is rendered. *)
Theorem no_alarm_no_countdown (s : App.state) (h : host) :
  alarms h !! ALARM = None →
  (App.getNextAlarmTime h).1 = 0
  ∧ App.nextTime (App.refreshNextTime s h).1 = 0 - clock h
  ∧ (0 ≤ clock h →
     App.nextTime (App.refreshNextTime s h).1 ≤ 0
     ∧ App.countdown (App.refreshNextTime s h).1 = None).
Proof.
  intros Hno.
  unfold App.refreshNextTime, App.getNextAlarmTime, alarms_get, Date_getTime,
    mbind, host_bind, bind, mret, host_ret, ret.
  rewrite Hno. cbn [fst snd App.setNextTime App.nextTime alarms clock record].
  split_and!; [done..|].
  intros Hc. split; [lia|].
  unfold App.countdown. cbn [App.nextTime App.setNextTime].
  destruct (Z.ltb_spec 0 (0 - clock h)); [lia|done].
Qed.

Lemma no_alarm_no_countdown_witness :
  (App.getNextAlarmTime Sample.fresh).1 = 0
  ∧ App.nextTime (App.refreshNextTime Sample.five_on Sample.fresh).1 ≤ 0
  ∧ App.countdown (App.refreshNextTime Sample.five_on Sample.fresh).1 = None.
Proof.
  destruct (no_alarm_no_countdown Sample.five_on Sample.fresh)
    as (A & _ & B); [vm_compute; reflexivity|].
  destruct B as (B1 & B2); [vm_compute; discriminate|].
  split_and!; assumption.
Defined.

(** ** The save path *)

Section SavePath.
Variable first_fire : Z → value → Z.

Lemma changed_enabled_differs (h : host) (s : App.state) :
  persisted_enabled h ≠ PBool (App.enabled s) → changed h s = true.
Proof.
  intros Hd. apply not_false_iff_true. rewrite changed_false. tauto.
Qed.

Lemma changed_message_differs (h : host) (s : App.state) :
  persisted_message h ≠ PStr (App.message s) → changed h s = true.
Proof.
  intros Hd. apply not_false_iff_true. rewrite changed_false. tauto.
Qed.

Lemma issued_save_changed (s : App.state) (h : host) :
  changed h s = true →
  issued (App.handleSave first_fire s) h
  = save_storage_calls s ++ [AlarmsClear ALARM]
      ++ (if App.enabled s
          then [AlarmsCreate ALARM (Prim (PNum (App.interval s)))]
          else [])
      ++ [AlarmsGet ALARM].
Proof.
  intros Hc. apply issued_app. by rewrite (handleSave_changed _ _ _ Hc).
Qed.

Lemma alarms_save_changed (s : App.state) (h : host) :
  changed h s = true →
  alarms (App.handleSave first_fire s h).2
  = if App.enabled s
    then <[ ALARM := Alarm ALARM
                       (first_fire (clock h) (Prim (PNum (App.interval s))))
                       (Prim (PNum (App.interval s))) ]>
           (delete ALARM (alarms h))
    else delete ALARM (alarms h).
Proof. intros Hc. by rewrite (handleSave_changed _ _ _ Hc). Qed.

Lemma storage_save (s : App.state) (h : host) :
  storage (App.handleSave first_fire s h).2 = saved s (storage h).
Proof.
  destruct (changed h s) eqn:Hc.
  - by rewrite (handleSave_changed _ _ _ Hc).
  - by rewrite (handleSave_unchanged _ _ _ Hc).
Qed.

Lemma delete_only_ALARM (m : gmap string alarm) :
  (∀ n, n ≠ ALARM → m !! n = None) → delete ALARM m = ∅.
Proof.
  intros Hother. apply map_eq. intros n. rewrite lookup_empty.
  destruct (decide (n = ALARM)) as [->|Hn].
  - by rewrite lookup_delete_eq.
  - by rewrite lookup_delete_ne, Hother.
Qed.

(** C4, as the code has it.  A save whose three values are the persisted
    ones, the interval being a number other than NaN, issues the three
    reads and the three writes of the store and nothing else: no alarm is
    cleared, none is created, and the existing alarm, its scheduled time
    included, is what it was. *)
Theorem save_same_values_keeps_alarm (s : App.state) (h : host) :
  persisted_enabled h = PBool (App.enabled s) →
  persisted_interval h = PNum (App.interval s) →
  persisted_message h = PStr (App.message s) →
  App.interval s ≠ NaN →
  issued (App.handleSave first_fire s) h = save_storage_calls s
  ∧ filter is_alarm_write (issued (App.handleSave first_fire s) h) = []
  ∧ alarms (App.handleSave first_fire s h).2 = alarms h
  ∧ (App.handleSave first_fire s h).1 = s.
Proof.
  intros He Hi Hm Hn.
  assert (Hc : changed h s = false) by (apply changed_false; tauto).
  assert (Hiss : issued (App.handleSave first_fire s) h = save_storage_calls s).
  { apply issued_app. by rewrite (handleSave_unchanged _ _ _ Hc). }
  split_and!.
  - exact Hiss.
  - rewrite Hiss. reflexivity.
  - by rewrite (handleSave_unchanged _ _ _ Hc).
  - by rewrite (handleSave_unchanged _ _ _ Hc).
Qed.

(** C5. A save that switches [enabled] from false to true clears the
    alarm and creates it once: afterwards the alarm named
    "eye-break-notification" exists, its period is the saved interval,
    which is also the interval now persisted; when no alarm of another
    name was scheduled it is the only alarm. *)
Theorem save_switch_on_creates_alarm (s : App.state) (h : host) :
  persisted_enabled h = PBool false →
  App.enabled s = true →
  let h' := (App.handleSave first_fire s h).2 in
  (∃ a, alarms h' !! ALARM = Some a
        ∧ name a = ALARM
        ∧ periodInMinutes a = Prim (PNum (App.interval s)))
  ∧ persisted_interval h' = PNum (App.interval s)
  ∧ filter is_alarm_write (issued (App.handleSave first_fire s) h)
    = [AlarmsClear ALARM; AlarmsCreate ALARM (Prim (PNum (App.interval s)))]
  ∧ ((∀ n, n ≠ ALARM → alarms h !! n = None) → size (alarms h') = 1%nat).
Proof.
  intros Hp He h'.
  assert (Hc : changed h s = true).
  { apply changed_enabled_differs. rewrite Hp, He. discriminate. }
  subst h'. rewrite (alarms_save_changed _ _ Hc), (issued_save_changed _ _ Hc).
  rewrite He. split_and!.
  - eexists. rewrite lookup_insert_eq. done.
  - by apply (persisted_after_save s h), storage_save.
  - reflexivity.
  - intros Hother. rewrite (delete_only_ALARM _ Hother).
    rewrite map_size_insert_None by apply lookup_empty.
    by rewrite map_size_empty.
Qed.

(** C6. A save that switches [enabled] from true to false clears the
    alarm and does not create one: afterwards no alarm named
    "eye-break-notification" exists. *)
Theorem save_switch_off_clears_alarm (s : App.state) (h : host) :
  persisted_enabled h = PBool true →
  App.enabled s = false →
  let h' := (App.handleSave first_fire s h).2 in
  alarms h' !! ALARM = None
  ∧ filter is_alarm_write (issued (App.handleSave first_fire s) h)
    = [AlarmsClear ALARM].
Proof.
  intros Hp He h'.
  assert (Hc : changed h s = true).
  { apply changed_enabled_differs. rewrite Hp, He. discriminate. }
  subst h'. rewrite (alarms_save_changed _ _ Hc), (issued_save_changed _ _ Hc).
  rewrite He. split.
  - apply lookup_delete_eq.
  - reflexivity.
Qed.

(** C7. A save in which only the message differs from the persisted
    settings, [enabled] staying true and the interval staying what it is,
    still clears the alarm and creates it again: afterwards the alarm
    exists with the unchanged interval as its period, equal to the period
    of an alarm that was scheduled with that interval before. *)
Theorem save_message_only_recreates_alarm (s : App.state) (h : host) :
  persisted_enabled h = PBool true →
  App.enabled s = true →
  persisted_interval h = PNum (App.interval s) →
  persisted_message h ≠ PStr (App.message s) →
  let h' := (App.handleSave first_fire s h).2 in
  filter is_alarm_write (issued (App.handleSave first_fire s) h)
  = [AlarmsClear ALARM; AlarmsCreate ALARM (Prim (persisted_interval h))]
  ∧ persisted_interval h' = persisted_interval h
  ∧ (∃ a, alarms h' !! ALARM = Some a
          ∧ name a = ALARM
          ∧ periodInMinutes a = Prim (persisted_interval h)
          ∧ (∀ a0, alarms h !! ALARM = Some a0 →
                   periodInMinutes a0 = Prim (persisted_interval h) →
                   periodInMinutes a = periodInMinutes a0))
  ∧ ((∀ n, n ≠ ALARM → alarms h !! n = None) → size (alarms h') = 1%nat).
Proof.
  intros Hp He Hi Hm h'.
  assert (Hc : changed h s = true) by by apply changed_message_differs.
  subst h'. rewrite (alarms_save_changed _ _ Hc), (issued_save_changed _ _ Hc).
  rewrite He, Hi. split_and!.
  - reflexivity.
  - by apply (persisted_after_save s h), storage_save.
  - eexists. rewrite lookup_insert_eq. split_and!; [done..|].
    intros a0 _ ->. done.
  - intros Hother. rewrite (delete_only_ALARM _ Hother).
    rewrite map_size_insert_None by apply lookup_empty.
    by rewrite map_size_empty.
Qed.

End SavePath.

(** C4, as stated, fails when the interval is NaN.  The form with an
    empty interval field is saved on a fresh installation; the persisted
    values are then the values of the form, and saving the same form
    again clears and recreates the alarm, because [NaN !== NaN]. *)
Lemma second_save_of_NaN_recreates_alarm :
  ¬ (persisted_enabled Sample.saved_empty_interval
       = PBool (App.enabled Sample.empty_interval) →
     persisted_interval Sample.saved_empty_interval
       = PNum (App.interval Sample.empty_interval) →
     persisted_message Sample.saved_empty_interval
       = PStr (App.message Sample.empty_interval) →
     filter is_alarm_write
       (issued (App.handleSave Sample.delay Sample.empty_interval)
          Sample.saved_empty_interval) = []).
Proof.
  intros H.
  specialize (H eq_refl eq_refl eq_refl).
  vm_compute in H. discriminate H.
Qed.

Lemma save_same_values_keeps_alarm_witness :
  issued (App.handleSave Sample.delay Sample.five_on) Sample.every_five
  = save_storage_calls Sample.five_on
  ∧ filter is_alarm_write
      (issued (App.handleSave Sample.delay Sample.five_on) Sample.every_five)
    = []
  ∧ alarms (App.handleSave Sample.delay Sample.five_on Sample.every_five).2
    = alarms Sample.every_five
  ∧ (App.handleSave Sample.delay Sample.five_on Sample.every_five).1
    = Sample.five_on.
Proof.
  apply (save_same_values_keeps_alarm Sample.delay
           Sample.five_on Sample.every_five).
  - vm_compute; reflexivity.
  - vm_compute; reflexivity.
  - vm_compute; reflexivity.
  - vm_compute; discriminate.
Defined.

Lemma save_switch_on_creates_alarm_witness :
  (∃ a, alarms (App.handleSave Sample.delay Sample.five_on
                  Sample.switched_off).2 !! ALARM = Some a
        ∧ name a = ALARM
        ∧ periodInMinutes a = Prim (PNum (Finite 5)))
  ∧ size (alarms (App.handleSave Sample.delay Sample.five_on
                    Sample.switched_off).2) = 1%nat.
Proof.
  destruct (save_switch_on_creates_alarm Sample.delay
              Sample.five_on Sample.switched_off)
    as (A & _ & _ & B).
  - vm_compute; reflexivity.
  - vm_compute; reflexivity.
  - split; [exact A|]. apply B. intros n _. apply lookup_empty.
Defined.

Lemma save_switch_off_clears_alarm_witness :
  alarms (App.handleSave Sample.delay Sample.five_off
            Sample.every_five).2 !! ALARM = None
  ∧ filter is_alarm_write
      (issued (App.handleSave Sample.delay Sample.five_off) Sample.every_five)
    = [AlarmsClear ALARM].
Proof.
  apply (save_switch_off_clears_alarm Sample.delay
           Sample.five_off Sample.every_five).
  - vm_compute; reflexivity.
  - vm_compute; reflexivity.
Defined.

Lemma save_message_only_recreates_alarm_witness :
  filter is_alarm_write
    (issued (App.handleSave Sample.delay Sample.five_on_reworded)
       Sample.every_five)
  = [AlarmsClear ALARM; AlarmsCreate ALARM (Prim (PNum (Finite 5)))]
  ∧ size (alarms (App.handleSave Sample.delay Sample.five_on_reworded
                    Sample.every_five).2) = 1%nat.
Proof.
  destruct (save_message_only_recreates_alarm Sample.delay
              Sample.five_on_reworded Sample.every_five)
    as (A & _ & _ & B).
  - vm_compute; reflexivity.
  - vm_compute; reflexivity.
  - vm_compute; reflexivity.
  - vm_compute; discriminate.
  - split; [exact A|]. apply B.
    intros n Hn. apply lookup_singleton_ne. congruence.
Defined.

(** ** Startup and the invariant *)

Section Reconciliation.
Variable first_fire : Z → value → Z.

(** The startup handler never looks at the persisted [enabled]: the
    promise it tests is truthy, so the alarm is always cleared and
    [alarms.create] is always called, with a promise as its period. *)
Lemma startupHandler_ignores_enabled (h : host) :
  issued (Background.startupHandler first_fire) h
  = [StorageGet "enabled"; StorageGet "interval"; AlarmsClear ALARM;
     AlarmsCreate ALARM (Promise (persisted_interval h))].
Proof.
  apply issued_app. rewrite startupHandler_run, persisted_interval_eq. done.
Qed.

Lemma startupHandler_alarm (h : host) :
  alarms (Background.startupHandler first_fire h).2 !! ALARM
  = Some (Alarm ALARM
            (first_fire (clock h) (Promise (persisted_interval h)))
            (Promise (persisted_interval h))).
Proof.
  rewrite startupHandler_run, persisted_interval_eq. cbn.
  apply lookup_insert_eq.
Qed.

Lemma startupHandler_storage (h : host) :
  storage (Background.startupHandler first_fire h).2 = storage h.
Proof. by rewrite startupHandler_run. Qed.

(** The save path keeps the invariant, as long as the only alarm ever
    scheduled is the extension's own. *)
Lemma handleSave_keeps_invariant (s : App.state) (h : host) :
  (∀ n, n ≠ ALARM → alarms h !! n = None) →
  invariant h →
  (∀ n, n ≠ ALARM → alarms (App.handleSave first_fire s h).2 !! n = None)
  ∧ invariant (App.handleSave first_fire s h).2.
Proof.
  intros Hother [Hone Hon Hoff].
  destruct (persisted_after_save s h (App.handleSave first_fire s h).2
              (storage_save first_fire s h)) as (Pe & Pi & Pm).
  destruct (changed h s) eqn:Hc.
  - rewrite (alarms_save_changed first_fire _ _ Hc) in *.
    rewrite (delete_only_ALARM _ Hother).
    split.
    + intros n Hn. destruct (App.enabled s).
      * rewrite lookup_insert_ne by done. apply lookup_empty.
      * apply lookup_empty.
    + constructor; rewrite ?Pe, ?Pi, (alarms_save_changed first_fire _ _ Hc),
        (delete_only_ALARM _ Hother).
      * destruct (App.enabled s).
        -- rewrite map_size_insert_None by apply lookup_empty.
           by rewrite map_size_empty.
        -- rewrite map_size_empty. lia.
      * intros [= ->]. eexists. by rewrite lookup_insert_eq.
      * by intros [= ->].
  - apply changed_false in Hc as (He & Hi & Hm & Hn).
    assert (Hc : changed h s = false) by (apply changed_false; tauto).
    assert (Ha : alarms (App.handleSave first_fire s h).2 = alarms h)
      by by rewrite (handleSave_unchanged first_fire _ _ Hc).
    split.
    + intros n Hn'. rewrite Ha. by apply Hother.
    + constructor; rewrite ?Pe, ?Pi, Ha, <- ?He, <- ?Hi; assumption.
Qed.

Lemma installed_invariant (h : host) :
  installed h → (∀ n, n ≠ ALARM → alarms h !! n = None) ∧ invariant h.
Proof.
  intros [Hs Ha]. split.
  - intros n _. rewrite Ha. apply lookup_empty.
  - constructor.
    + rewrite Ha, map_size_empty. lia.
    + rewrite persisted_enabled_eq, Hs, lookup_empty. discriminate.
    + done.
Qed.

(** X17. Every state reached from a fresh installation by saves alone
    satisfies the invariant of the data model: at most one alarm, there
    with the persisted interval as its period when [enabled] is
    persisted as true, absent when it is persisted as false. *)
Lemma saves_keep_invariant (h0 h : host) :
  installed h0 → rtc (save_step first_fire) h0 h → invariant h.
Proof.
  intros Hi Hr.
  cut ((∀ n, n ≠ ALARM → alarms h !! n = None) ∧ invariant h); [tauto|].
  apply (rtc_ind_r (R := save_step first_fire)
           (λ h, (∀ n, n ≠ ALARM → alarms h !! n = None) ∧ invariant h) h0);
    [ | | exact Hr].
  - by apply installed_invariant.
  - intros h1 h2 _ Hstep [Ho Hinv]. destruct Hstep as [s h1].
    by apply handleSave_keeps_invariant.
Qed.

End Reconciliation.

(** C1, evaluated where it fails.  Reminders are switched on with an
    interval of five minutes and the browser is restarted: in that
    reachable state [enabled] is persisted as true and the interval as 5,
    but the period of the alarm is the promise the startup handler passed
    to [alarms.create], so the invariant does not hold.  Nor does it hold
    after a start on a fresh installation, where [enabled] reads as false
    and an alarm has been created all the same. *)
Theorem startup_breaks_invariant :
  (reachable Sample.delay Sample.restarted
   ∧ persisted_enabled Sample.restarted = PBool true
   ∧ persisted_interval Sample.restarted = PNum (Finite 5)
   ∧ alarms Sample.restarted !! ALARM
     = Some (Alarm ALARM 1700000000000 (Promise (PNum (Finite 5))))
   ∧ ¬ invariant Sample.restarted)
  ∧ (reachable Sample.delay Sample.started
     ∧ persisted_enabled Sample.started = PBool false
     ∧ alarms Sample.started !! ALARM
       = Some (Alarm ALARM 1700000000000 (Promise (PNum (Finite 20))))
     ∧ ¬ invariant Sample.started).
Proof.
  split; split_and!.
  - exists Sample.fresh. split; [done|].
    eapply rtc_l; [apply (step_save _ Sample.five_on)|].
    apply rtc_once. apply step_startup.
  - vm_compute; reflexivity.
  - vm_compute; reflexivity.
  - vm_compute; reflexivity.
  - intros [_ Hon _].
    destruct (Hon ltac:(vm_compute; reflexivity)) as (a & Ha & Hp).
    vm_compute in Ha. injection Ha as <-.
    vm_compute in Hp. discriminate Hp.
  - exists Sample.fresh. split; [done|].
    apply rtc_once. apply step_startup.
  - vm_compute; reflexivity.
  - vm_compute; reflexivity.
  - intros [_ _ Hoff].
    specialize (Hoff ltac:(vm_compute; reflexivity)).
    apply (f_equal (λ m : gmap string alarm, m !! ALARM)) in Hoff.
    vm_compute in Hoff. discriminate Hoff.
Qed.

(** C2, evaluated where it fails.  With [enabled] persisted as false and
    an alarm still scheduled, the startup handler clears the alarm and
    calls [alarms.create]: the alarm that was there is gone. *)
Theorem startup_when_disabled_replaces_alarm :
  persisted_enabled Sample.disabled_with_alarm = PBool false
  ∧ issued (Background.startupHandler Sample.delay) Sample.disabled_with_alarm
    = [StorageGet "enabled"; StorageGet "interval"; AlarmsClear ALARM;
       AlarmsCreate ALARM (Promise (PNum (Finite 20)))]
  ∧ alarms Sample.disabled_with_alarm !! ALARM
    = Some (Alarm ALARM 1700000600000 (Prim (PNum (Finite 20))))
  ∧ alarms (Background.startupHandler Sample.delay
              Sample.disabled_with_alarm).2 !! ALARM
    = Some (Alarm ALARM 1700000000000 (Promise (PNum (Finite 20)))).
Proof. split_and!; vm_compute; reflexivity. Qed.

(** C3, evaluated where it fails.  With [enabled] persisted as true and
    the interval 5, the startup handler clears the alarm and then calls
    [alarms.create], but the period it passes is the promise returned by
    [getInterval()], not the number 5. *)
Theorem startup_when_enabled_passes_promise :
  persisted_enabled Sample.every_five = PBool true
  ∧ persisted_interval Sample.every_five = PNum (Finite 5)
  ∧ issued (Background.startupHandler Sample.delay) Sample.every_five
    = [StorageGet "enabled"; StorageGet "interval"; AlarmsClear ALARM;
       AlarmsCreate ALARM (Promise (PNum (Finite 5)))]
  ∧ (∃ a, alarms (Background.startupHandler Sample.delay
                    Sample.every_five).2 !! ALARM = Some a
          ∧ periodInMinutes a = Promise (PNum (Finite 5))
          ∧ periodInMinutes a ≠ Prim (PNum (Finite 5))).
Proof.
  split_and!; [vm_compute; reflexivity..|].
  eexists. split_and!; [vm_compute; reflexivity|reflexivity|discriminate].
Qed.

(** ** Setters and getters *)

Lemma setEnabled_run (v : bool) (h : host) :
  App.setEnabled v h
  = (tt, MkHost (<[ "enabled" := PBool v ]> (storage h)) (alarms h) (clock h)
           (base_url h) (trace h ++ [StorageSet "enabled" (PBool v)])).
Proof. destruct h. reflexivity. Qed.

Lemma setIntervalStorage_run (v : number) (h : host) :
  App.setIntervalStorage v h
  = (tt, MkHost (<[ "interval" := PNum v ]> (storage h)) (alarms h) (clock h)
           (base_url h) (trace h ++ [StorageSet "interval" (PNum v)])).
Proof. destruct h. reflexivity. Qed.

Lemma setMessage_run (v : string) (h : host) :
  App.setMessage v h
  = (tt, MkHost (<[ "message" := PStr v ]> (storage h)) (alarms h) (clock h)
           (base_url h) (trace h ++ [StorageSet "message" (PStr v)])).
Proof. destruct h. reflexivity. Qed.

Lemma key_enabled_interval : "enabled" ≠ "interval".
Proof. discriminate. Qed.
Lemma key_enabled_message : "enabled" ≠ "message".
Proof. discriminate. Qed.
Lemma key_interval_message : "interval" ≠ "message".
Proof. discriminate. Qed.

(** X1. What a setter of the settings view writes is what the getter of
    the same key reads back, in the view and in the background script. *)
Theorem set_then_get (h : host) (e : bool) (i : number) (m : string) :
  (App.getEnabled (App.setEnabled e h).2).1 = PBool e
  ∧ (Background.getEnabled (App.setEnabled e h).2).1 = PBool e
  ∧ (App.getInterval (App.setIntervalStorage i h).2).1 = PNum i
  ∧ (Background.getInterval (App.setIntervalStorage i h).2).1 = PNum i
  ∧ (App.getMessage (App.setMessage m h).2).1 = PStr m
  ∧ (Background.getMessage (App.setMessage m h).2).1 = PStr m.
Proof.
  rewrite App_getEnabled_run, Background_getEnabled_run,
    App_getInterval_run, Background_getInterval_run,
    App_getMessage_run, Background_getMessage_run,
    setEnabled_run, setIntervalStorage_run, setMessage_run.
  cbn [fst snd storage].
  rewrite !lookup_insert_eq. done.
Qed.

(** X2. A setter changes its own key only: the other two settings read
    as before, and no alarm is touched. *)
Theorem set_leaves_other_settings (h : host) (e : bool) (i : number)
    (m : string) :
  ((App.getInterval (App.setEnabled e h).2).1 = (App.getInterval h).1
   ∧ (App.getMessage (App.setEnabled e h).2).1 = (App.getMessage h).1
   ∧ alarms (App.setEnabled e h).2 = alarms h)
  ∧ ((App.getEnabled (App.setIntervalStorage i h).2).1 = (App.getEnabled h).1
     ∧ (App.getMessage (App.setIntervalStorage i h).2).1
       = (App.getMessage h).1
     ∧ alarms (App.setIntervalStorage i h).2 = alarms h)
  ∧ ((App.getEnabled (App.setMessage m h).2).1 = (App.getEnabled h).1
     ∧ (App.getInterval (App.setMessage m h).2).1 = (App.getInterval h).1
     ∧ alarms (App.setMessage m h).2 = alarms h).
Proof.
  pose proof key_enabled_interval. pose proof key_enabled_message.
  pose proof key_interval_message.
  rewrite !App_getEnabled_run, !App_getInterval_run, !App_getMessage_run,
    setEnabled_run, setIntervalStorage_run, setMessage_run.
  cbn [fst snd storage alarms].
  rewrite !lookup_insert_ne by done. done.
Qed.

(** ** More on the save path *)

Section SaveMore.
Variable first_fire : Z → value → Z.

Lemma alarms_save_other (s : App.state) (h : host) (n : string) :
  n ≠ ALARM →
  alarms (App.handleSave first_fire s h).2 !! n = alarms h !! n.
Proof.
  intros Hn. destruct (changed h s) eqn:Hc.
  - rewrite (alarms_save_changed first_fire _ _ Hc).
    destruct (App.enabled s).
    + rewrite lookup_insert_ne by done. by rewrite lookup_delete_ne.
    + by rewrite lookup_delete_ne.
  - by rewrite (handleSave_unchanged first_fire _ _ Hc).
Qed.

Lemma changed_true (h : host) (s : App.state) :
  persisted_enabled h ≠ PBool (App.enabled s)
  ∨ persisted_interval h ≠ PNum (App.interval s)
  ∨ persisted_message h ≠ PStr (App.message s)
  ∨ App.interval s = NaN →
  changed h s = true.
Proof.
  intros Hd. apply not_false_iff_true. rewrite changed_false.
  intros (He & Hi & Hm & Hn). destruct Hd as [?|[?|[?|?]]]; done.
Qed.

Lemma writes_save (s : App.state) (h : host) :
  filter is_alarm_write (issued (App.handleSave first_fire s) h)
  = if changed h s
    then AlarmsClear ALARM
         :: (if App.enabled s
             then [AlarmsCreate ALARM (Prim (PNum (App.interval s)))]
             else [])
    else [].
Proof.
  destruct (changed h s) eqn:Hc.
  - rewrite (issued_save_changed first_fire _ _ Hc).
    by destruct (App.enabled s).
  - rewrite (issued_app _ _ (save_storage_calls s)); [done|].
    by rewrite (handleSave_unchanged first_fire _ _ Hc).
Qed.

(** X3. Every save persists the three values of the form, whether or
    not a change is detected: afterwards the getters of both scripts
    return them. *)
Theorem save_persists_form (s : App.state) (h : host) :
  let h' := (App.handleSave first_fire s h).2 in
  (App.getEnabled h').1 = PBool (App.enabled s)
  ∧ (App.getInterval h').1 = PNum (App.interval s)
  ∧ (App.getMessage h').1 = PStr (App.message s)
  ∧ (Background.getEnabled h').1 = PBool (App.enabled s)
  ∧ (Background.getInterval h').1 = PNum (App.interval s)
  ∧ (Background.getMessage h').1 = PStr (App.message s).
Proof.
  intros h'.
  destruct (persisted_after_save s h h' (storage_save first_fire s h))
    as (He & Hi & Hm).
  split_and!; assumption.
Qed.

(** X4. A save writes the three settings keys and the extension's own
    alarm and nothing else: any other key of the store and any alarm of
    another name are what they were. *)
Theorem save_leaves_the_rest (s : App.state) (h : host) :
  let h' := (App.handleSave first_fire s h).2 in
  (∀ k, k ≠ "enabled" → k ≠ "interval" → k ≠ "message" →
        storage h' !! k = storage h !! k)
  ∧ (∀ n, n ≠ ALARM → alarms h' !! n = alarms h !! n).
Proof.
  intros h'. split.
  - intros k H1 H2 H3. subst h'. rewrite storage_save. unfold saved.
    by rewrite !lookup_insert_ne.
  - intros n Hn. by apply alarms_save_other.
Qed.

(** X5. The alarm calls of a save have one of three shapes: none; one
    clear, the form being switched off; one clear followed by one create
    of the extension's alarm with the form's interval, the form being
    switched on.  So an alarm is never created without being cleared
    first, and never for a form that is switched off.  A save displays
    no notification and logs no diagnostic. *)
Theorem save_alarm_calls (s : App.state) (h : host) :
  let calls := issued (App.handleSave first_fire s) h in
  (filter is_alarm_write calls = []
   ∨ (filter is_alarm_write calls = [AlarmsClear ALARM]
      ∧ App.enabled s = false)
   ∨ (filter is_alarm_write calls
      = [AlarmsClear ALARM;
         AlarmsCreate ALARM (Prim (PNum (App.interval s)))]
      ∧ App.enabled s = true))
  ∧ notifications_of calls = []
  ∧ diagnostics_of calls = [].
Proof.
  intros calls. subst calls. split.
  - rewrite writes_save.
    destruct (changed h s), (App.enabled s); auto.
  - destruct (changed h s) eqn:Hc.
    + rewrite (issued_save_changed first_fire _ _ Hc).
      by destruct (App.enabled s).
    + rewrite (issued_app _ _ (save_storage_calls s)); [done|].
      by rewrite (handleSave_unchanged first_fire _ _ Hc).
Qed.

(** X6. A difference in any one of the three settings triggers the
    reconciliation: the alarm is cleared, and when the form is switched
    on it is created again with the form's interval, so that for
    instance a new interval takes effect at once. *)
Theorem save_any_difference_reconciles (s : App.state) (h : host) :
  persisted_enabled h ≠ PBool (App.enabled s)
  ∨ persisted_interval h ≠ PNum (App.interval s)
  ∨ persisted_message h ≠ PStr (App.message s) →
  let h' := (App.handleSave first_fire s h).2 in
  let period := Prim (PNum (App.interval s)) in
  filter is_alarm_write (issued (App.handleSave first_fire s) h)
  = AlarmsClear ALARM
    :: (if App.enabled s then [AlarmsCreate ALARM period] else [])
  ∧ alarms h' !! ALARM
    = if App.enabled s
      then Some (Alarm ALARM (first_fire (clock h) period) period)
      else None.
Proof.
  intros Hd h' period.
  assert (Hc : changed h s = true) by (apply changed_true; tauto).
  subst h'. rewrite writes_save, Hc, (alarms_save_changed first_fire _ _ Hc).
  split; [done|].
  destruct (App.enabled s).
  - by rewrite lookup_insert_eq.
  - by rewrite lookup_delete_eq.
Qed.

Lemma saved_twice (s : App.state) (st : gmap string prim) :
  saved s (saved s st) = saved s st.
Proof.
  pose proof key_enabled_interval. pose proof key_enabled_message.
  pose proof key_interval_message.
  apply map_eq. intros k. unfold saved.
  destruct (decide (k = "message")) as [->|?];
    [by rewrite !lookup_insert_eq|].
  rewrite (lookup_insert_ne _ "message" k) by done.
  rewrite (lookup_insert_ne _ "message" k) by done.
  destruct (decide (k = "interval")) as [->|?];
    [by rewrite !lookup_insert_eq|].
  rewrite (lookup_insert_ne _ "interval" k) by done.
  rewrite (lookup_insert_ne _ "interval" k) by done.
  destruct (decide (k = "enabled")) as [->|?];
    [by rewrite !lookup_insert_eq|].
  rewrite (lookup_insert_ne _ "enabled" k) by done.
  rewrite (lookup_insert_ne _ "enabled" k) by done.
  by rewrite !lookup_insert_ne.
Qed.

(** X7. Saving the same form twice in a row, its interval being a number
    other than NaN: the second save issues no alarm call and leaves the
    alarms, the store and the view's state as the first save left
    them. *)
Theorem save_twice_is_save_once (s : App.state) (h : host) :
  App.interval s ≠ NaN →
  let h1 := (App.handleSave first_fire s h).2 in
  filter is_alarm_write (issued (App.handleSave first_fire s) h1) = []
  ∧ alarms (App.handleSave first_fire s h1).2 = alarms h1
  ∧ storage (App.handleSave first_fire s h1).2 = storage h1
  ∧ (App.handleSave first_fire s h1).1 = s.
Proof.
  intros Hn h1.
  destruct (persisted_after_save s h h1 (storage_save first_fire s h))
    as (He & Hi & Hm).
  assert (Hc : changed h1 s = false) by (apply changed_false; tauto).
  rewrite writes_save, Hc, storage_save.
  rewrite (handleSave_unchanged first_fire _ _ Hc). cbn [fst snd alarms].
  split_and!; [done..| |done].
  subst h1. by rewrite storage_save, saved_twice.
Qed.

(** X8. With the interval field left empty (NaN) every save counts as a
    change, whatever is persisted: the alarm is cleared, and created
    again when the form is switched on. *)
Theorem save_of_NaN_always_reconciles (s : App.state) (h : host) :
  App.interval s = NaN →
  filter is_alarm_write (issued (App.handleSave first_fire s) h)
  = AlarmsClear ALARM
    :: (if App.enabled s
        then [AlarmsCreate ALARM (Prim (PNum NaN))]
        else []).
Proof.
  intros Hn.
  assert (Hc : changed h s = true) by (apply changed_true; tauto).
  by rewrite writes_save, Hc, Hn.
Qed.

(** X9. A save that detects a change puts the alarms in order whatever
    they were, provided no alarm of another name is scheduled:
    afterwards the invariant of the data model holds. *)
Theorem save_with_change_establishes_invariant (s : App.state) (h : host) :
  (∀ n, n ≠ ALARM → alarms h !! n = None) →
  changed h s = true →
  invariant (App.handleSave first_fire s h).2.
Proof.
  intros Hother Hc.
  destruct (persisted_after_save s h (App.handleSave first_fire s h).2
              (storage_save first_fire s h)) as (Pe & Pi & Pm).
  constructor; rewrite ?Pe, ?Pi, (alarms_save_changed first_fire _ _ Hc),
    (delete_only_ALARM _ Hother).
  - destruct (App.enabled s).
    + rewrite map_size_insert_None by apply lookup_empty.
      by rewrite map_size_empty.
    + rewrite map_size_empty. lia.
  - intros [= ->]. eexists. by rewrite lookup_insert_eq.
  - by intros [= ->].
Qed.

End SaveMore.

Lemma countdown_is_Some (s : App.state) :
  is_Some (App.countdown s) ↔ 0 < App.nextTime s.
Proof.
  unfold App.countdown.
  destruct (Z.ltb_spec 0 (App.nextTime s)).
  - split; [done|by eauto].
  - split; [by intros [? [=]]|lia].
Qed.

Section ViewAndHandlers.
Variable first_fire : Z → value → Z.

Lemma base_url_save (s : App.state) (h : host) :
  base_url (App.handleSave first_fire s h).2 = base_url h.
Proof.
  destruct (changed h s) eqn:Hc.
  - by rewrite (handleSave_changed first_fire _ _ Hc).
  - by rewrite (handleSave_unchanged first_fire _ _ Hc).
Qed.

(** X10. The message is read when the alarm fires, not when the alarm is
    created: after a save, the next notification carries the message of
    the form that was saved, whether or not the save touched the
    alarm. *)
Theorem notification_carries_saved_message (a : alarm) (s : App.state)
    (h : host) :
  notifications_of
    (issued (Background.alarmHandler a) (App.handleSave first_fire s h).2)
  = [Notification "basic" (base_url h +:+ "logo48.png")
       (PStr "Eye Break!") (PStr (App.message s))].
Proof.
  rewrite (issued_app _ _ _ (f_equal trace
    (f_equal snd (alarmHandler_run a _)))).
  rewrite storage_save, base_url_save. unfold saved.
  rewrite lookup_insert_eq.
  by destruct (String.eqb (name a) ALARM).
Qed.

(** X11. The poll of the settings view sets the countdown to the
    scheduled time of the extension's alarm, or 0 when there is none,
    minus the current time.  It changes neither the form nor the store
    nor the alarms, and a countdown is rendered exactly when the alarm
    exists and is scheduled after the current time of a clock that is
    not before the epoch. *)
Theorem poll_sets_countdown (s : App.state) (h : host) :
  let s' := (App.refreshNextTime s h).1 in
  let h' := (App.refreshNextTime s h).2 in
  App.nextTime s'
  = from_option scheduledTime 0 (alarms h !! ALARM) - clock h
  ∧ (App.enabled s', App.interval s', App.message s')
    = (App.enabled s, App.interval s, App.message s)
  ∧ storage h' = storage h
  ∧ alarms h' = alarms h
  ∧ (0 ≤ clock h →
     (is_Some (App.countdown s') ↔
      ∃ a, alarms h !! ALARM = Some a ∧ clock h < scheduledTime a)).
Proof.
  destruct h as [st al ck bu tr].
  unfold App.refreshNextTime, App.getNextAlarmTime. host_run.
  destruct (al !! ALARM) as [a|] eqn:Ha; host_run;
    rewrite countdown_is_Some;
    cbn [App.nextTime App.setNextTime App.enabled App.interval App.message
         from_option];
    (split_and!; [done..|]); intros Hc.
  - split.
    + intros Hlt. exists a. split; [done|lia].
    + intros (a' & [= <-] & Hlt). lia.
  - split; [lia|]. by intros (a' & [=] & ?).
Qed.

(** X12. What a save does to the view: without a detected change the
    state of the view is untouched; with one, the countdown is set to
    the first firing time of the new alarm minus the current time when
    the form is switched on, and to minus the current time when it is
    switched off, so that no countdown is rendered any more. *)
Theorem save_refreshes_countdown (s : App.state) (h : host) :
  let s' := (App.handleSave first_fire s h).1 in
  (changed h s = false → s' = s)
  ∧ (changed h s = true →
     (App.enabled s', App.interval s', App.message s')
     = (App.enabled s, App.interval s, App.message s)
     ∧ (App.enabled s = true →
        App.nextTime s'
        = first_fire (clock h) (Prim (PNum (App.interval s))) - clock h)
     ∧ (App.enabled s = false →
        App.nextTime s' = 0 - clock h
        ∧ (0 ≤ clock h → App.countdown s' = None))).
Proof.
  intros s'. subst s'. split.
  - intros Hc. by rewrite (handleSave_unchanged first_fire _ _ Hc).
  - intros Hc. rewrite (handleSave_changed first_fire _ _ Hc).
    cbn [fst App.setNextTime App.enabled App.interval App.message
         App.nextTime].
    split_and!; [done| |]; intros ->.
    + by rewrite lookup_insert_eq.
    + rewrite lookup_delete_eq. cbn [from_option]. split; [done|].
      intros Hck. unfold App.countdown. cbn [App.nextTime App.setNextTime].
      by destruct (Z.ltb_spec 0 (0 - clock h)); [lia|].
Qed.

(** X13. The startup handler writes nothing to the store, touches no
    alarm but the extension's own, displays no notification and logs no
    diagnostic: the settings read the same before and after. *)
Theorem startup_leaves_the_rest (h : host) :
  let h' := (Background.startupHandler first_fire h).2 in
  storage h' = storage h
  ∧ (Background.getEnabled h').1 = (Background.getEnabled h).1
  ∧ (Background.getInterval h').1 = (Background.getInterval h).1
  ∧ (Background.getMessage h').1 = (Background.getMessage h).1
  ∧ (∀ n, n ≠ ALARM → alarms h' !! n = alarms h !! n)
  ∧ notifications_of (issued (Background.startupHandler first_fire) h) = []
  ∧ diagnostics_of (issued (Background.startupHandler first_fire) h) = [].
Proof.
  intros h'. subst h'.
  rewrite !Background_getEnabled_run, !Background_getInterval_run,
    !Background_getMessage_run.
  rewrite (issued_app _ _ _ (f_equal trace
    (f_equal snd (startupHandler_run first_fire h)))).
  rewrite startupHandler_run. cbn [fst snd storage alarms].
  split_and!; [done..| |done|done].
  intros n Hn. rewrite lookup_insert_ne by done. by rewrite lookup_delete_ne.
Qed.

End ViewAndHandlers.

(** ** The rendering of the countdown *)



(** ** Repeated fires, and the order of the storage calls of a save *)

(** X15. Fires are not deduplicated and leave no mark: when two alarms
    fire one after the other, two notifications are displayed, both with
    the persisted message, whatever the names of the alarms. *)
Theorem two_fires_two_notifications (a b : alarm) (h : host) :
  notifications_of
    (issued (_ ← Background.alarmHandler a; Background.alarmHandler b) h)
  = [Notification "basic" (base_url h +:+ "logo48.png")
       (PStr "Eye Break!") (Background.getMessage h).1;
     Notification "basic" (base_url h +:+ "logo48.png")
       (PStr "Eye Break!") (Background.getMessage h).1].
Proof.
  unfold issued. unfold mbind at 1, host_bind at 1, bind at 1.
  rewrite (alarmHandler_run a h). cbv beta iota zeta.
  rewrite alarmHandler_run. cbn [fst snd storage base_url trace].
  rewrite Background_getMessage_run. cbn [fst].
  rewrite <- !app_assoc, drop_app_length.
  by destruct (String.eqb (name a) ALARM), (String.eqb (name b) ALARM).
Qed.

Section SaveOrder.
Variable first_fire : Z → value → Z.

(** X16. Every save first reads the three persisted settings, then
    writes the three values of the form, and only then deals with the
    alarm: the first six calls are the three reads followed by the three
    writes, and no storage call comes after them.  The change detection
    therefore compares the form with the settings as they were before
    the save. *)
Theorem save_reads_before_it_writes (s : App.state) (h : host) :
  let calls := issued (App.handleSave first_fire s) h in
  take 6 calls
  = [StorageGet "enabled"; StorageGet "interval"; StorageGet "message";
     StorageSet "enabled" (PBool (App.enabled s));
     StorageSet "interval" (PNum (App.interval s));
     StorageSet "message" (PStr (App.message s))]
  ∧ filter is_storage_call (drop 6 calls) = [].
Proof.
  intros calls. subst calls.
  destruct (changed h s) eqn:Hc.
  - rewrite (issued_save_changed first_fire _ _ Hc).
    unfold save_storage_calls. by destruct (App.enabled s).
  - rewrite (issued_app _ _ (save_storage_calls s)).
    + done.
    + by rewrite (handleSave_unchanged first_fire _ _ Hc).
Qed.

End SaveOrder.

(** ** Evaluations of the theorems above on concrete states *)

Lemma save_leaves_the_rest_witness :
  storage (App.handleSave Sample.delay Sample.ten_on Sample.shared).2
    !! "theme" = storage Sample.shared !! "theme"
  ∧ alarms (App.handleSave Sample.delay Sample.ten_on Sample.shared).2
      !! "backup" = alarms Sample.shared !! "backup".
Proof.
  destruct (save_leaves_the_rest Sample.delay Sample.ten_on Sample.shared)
    as [A B].
  split.
  - apply A; discriminate.
  - apply B. vm_compute; discriminate.
Defined.

Lemma save_any_difference_reconciles_witness :
  filter is_alarm_write
    (issued (App.handleSave Sample.delay Sample.ten_on) Sample.every_five)
  = [AlarmsClear ALARM; AlarmsCreate ALARM (Prim (PNum (Finite 10)))]
  ∧ alarms (App.handleSave Sample.delay Sample.ten_on Sample.every_five).2
      !! ALARM
    = Some (Alarm ALARM 1700000600000 (Prim (PNum (Finite 10)))).
Proof.
  apply (save_any_difference_reconciles Sample.delay
           Sample.ten_on Sample.every_five).
  right; left. vm_compute; discriminate.
Defined.

Lemma save_twice_is_save_once_witness :
  filter is_alarm_write
    (issued (App.handleSave Sample.delay Sample.five_on)
       (App.handleSave Sample.delay Sample.five_on Sample.fresh).2) = []
  ∧ alarms (App.handleSave Sample.delay Sample.five_on
              (App.handleSave Sample.delay Sample.five_on Sample.fresh).2).2
    = alarms (App.handleSave Sample.delay Sample.five_on Sample.fresh).2
  ∧ storage (App.handleSave Sample.delay Sample.five_on
               (App.handleSave Sample.delay Sample.five_on Sample.fresh).2).2
    = storage (App.handleSave Sample.delay Sample.five_on Sample.fresh).2
  ∧ (App.handleSave Sample.delay Sample.five_on
       (App.handleSave Sample.delay Sample.five_on Sample.fresh).2).1
    = Sample.five_on.
Proof.
  apply (save_twice_is_save_once Sample.delay Sample.five_on Sample.fresh).
  discriminate.
Defined.

Lemma save_of_NaN_always_reconciles_witness :
  filter is_alarm_write
    (issued (App.handleSave Sample.delay Sample.empty_interval)
       Sample.saved_empty_interval)
  = [AlarmsClear ALARM; AlarmsCreate ALARM (Prim (PNum NaN))].
Proof.
  apply (save_of_NaN_always_reconciles Sample.delay
           Sample.empty_interval Sample.saved_empty_interval).
  reflexivity.
Defined.

Lemma save_with_change_establishes_invariant_witness :
  invariant (App.handleSave Sample.delay Sample.five_on Sample.started).2.
Proof.
  apply (save_with_change_establishes_invariant Sample.delay
           Sample.five_on Sample.started).
  - intros n Hn. unfold Sample.started.
    rewrite startupHandler_run. cbn [snd alarms].
    rewrite lookup_insert_ne by done.
    rewrite lookup_delete_ne by done.
    apply lookup_empty.
  - vm_compute; reflexivity.
Defined.

Lemma saves_keep_invariant_witness : invariant Sample.saved_five.
Proof.
  apply (saves_keep_invariant Sample.delay Sample.fresh Sample.saved_five).
  - split; reflexivity.
  - unfold Sample.saved_five. apply rtc_once.
    exact (save_step_intro Sample.delay Sample.five_on Sample.fresh).
Defined.

Lemma poll_sets_countdown_witness :
  is_Some (App.countdown
             (App.refreshNextTime Sample.five_on Sample.every_five).1).
Proof.
  destruct (poll_sets_countdown Sample.five_on Sample.every_five)
    as (_ & _ & _ & _ & B).
  apply B.
  - vm_compute; discriminate.
  - eexists. split; [vm_compute; reflexivity|vm_compute; reflexivity].
Defined.

Lemma save_refreshes_countdown_witness :
  App.nextTime
    (App.handleSave Sample.delay Sample.five_off Sample.every_five).1
  = 0 - clock Sample.every_five
  ∧ App.countdown
      (App.handleSave Sample.delay Sample.five_off Sample.every_five).1
    = None.
Proof.
  destruct (save_refreshes_countdown Sample.delay
              Sample.five_off Sample.every_five) as [_ B].
  destruct B as (_ & _ & C); [vm_compute; reflexivity|].
  destruct C as [C1 C2]; [reflexivity|].
  split; [exact C1|]. apply C2. vm_compute; discriminate.
Defined.

Lemma startup_leaves_the_rest_witness :
  alarms (Background.startupHandler Sample.delay Sample.shared).2 !! "backup"
  = alarms Sample.shared !! "backup".
Proof.
  destruct (startup_leaves_the_rest Sample.delay Sample.shared)
    as (_ & _ & _ & _ & B & _).
  apply B. vm_compute; discriminate.
Defined.

